(** * Hummingbird: the conversion entry points of [hummingbird/convert.py]

    A shallow embedding of [convert_sklearn], [convert_lightgbm] and
    [convert_xgboost].  Python objects live in a store; the three functions
    are written in a state-and-exception monad over that store, one monadic
    step per Python statement.  The collaborators imported by the module
    ([torch_installed], [lightgbm_installed], [xgboost_installed],
    [parse_sklearn_api_model], [convert_topology]) are fields of an
    environment record. *)

From stdpp Require Import gmap strings list fin_maps.
From Stdlib Require Import ZArith.

Local Open Scope string_scope.
Local Open Scope Z_scope.

(** ** Python values *)

(** References to heap objects. *)
Abbreviation loc := positive (only parsing).

(** Immutable values stored in attributes and in dictionary entries. *)
Inductive pyval : Type :=
| VNone
| VBool (b : bool)
| VInt (z : Z)
| VStr (s : string).

(** A [dict] with string keys, and the attribute table of an object (what
    [dir] lists and attribute access reads). An object owns its attribute
    values, so copying the table is a deep copy. *)
Abbreviation pydict := (gmap string pyval) (only parsing).
Abbreviation pyobj := (gmap string pyval) (only parsing).

(** Element types of a numpy array. *)
Inductive dtype : Type := Float64 | Float32 | Int64 | BoolT | StrT | ObjectT.

Definition numeric (dt : dtype) : bool :=
  match dt with
  | Float64 | Float32 | Int64 | BoolT => true
  | StrT | ObjectT => false
  end.

(** What a caller may pass as [test_input]: [None], an object whose type is
    exactly [np.ndarray], an instance of a subclass of [np.ndarray]
    ([np.matrix], [np.memmap]), which is an array with a shape but of another
    type, or an object of any other type (a list, a data frame). *)
Inductive py_input : Type :=
| InNone
| InNdarray (dt : dtype) (shape : list nat)
| InOther (type_name : string)
| InSubclass (type_name : string) (dt : dtype) (shape : list nat).

(** [test_input is None] *)
Definition is_None (t : py_input) : bool :=
  match t with InNone => true | _ => false end.

(** [type(test_input) is np.ndarray] *)
Definition type_is_ndarray (t : py_input) : bool :=
  match t with InNdarray _ _ => true | _ => false end.

(** [test_input.shape] *)
Definition shape (t : py_input) : list nat :=
  match t with InNdarray _ s | InSubclass _ _ s => s | _ => [] end.

(** Exceptions. [CollaboratorError] stands for whatever the parser or the
    lowering pass raises. *)
Inductive exn : Type :=
| AssertionError (msg : string)
| RuntimeError (msg : string)
| AttributeError (name : string)
| CollaboratorError (kind msg : string).

Inductive result (A : Type) : Type :=
| Ok (a : A)
| Raise (e : exn).
Arguments Ok {A} a.
Arguments Raise {A} e.

(** ** Collaborators *)

(** The parser receives the object it is handed and may rewrite it ("We
    modify the scikit learn model during optimizations"); the lowering pass
    reads the topology, the device and the entries of [extra_config]. *)
Record Env (Topology TensorProgram : Type) : Type := {
  torch_installed : bool;
  lightgbm_installed : bool;
  xgboost_installed : bool;
  parse_fn : pyobj -> pyobj * result Topology;
  lower_fn : Topology -> pyval -> pydict -> result TensorProgram
}.
Arguments torch_installed {Topology TensorProgram} _.
Arguments lightgbm_installed {Topology TensorProgram} _.
Arguments xgboost_installed {Topology TensorProgram} _.
Arguments parse_fn {Topology TensorProgram} _ _.
Arguments lower_fn {Topology TensorProgram} _ _ _ _.

(** ** The store and the monad *)

(** What the collaborators were asked to do, in order. *)
Inductive event (Topology : Type) : Type :=
| EvDeepcopy (src dst : loc)
| EvParse (l : loc)
| EvLower (t : Topology) (device : pyval) (cfg : pydict).
Arguments EvDeepcopy {Topology} src dst.
Arguments EvParse {Topology} l.
Arguments EvLower {Topology} t device cfg.

Record world (Topology : Type) : Type := World {
  models : gmap loc pyobj;
  dicts : gmap loc pydict;
  trace : list (event Topology)
}.
Arguments World {Topology} models dicts trace.
Arguments models {Topology} w.
Arguments dicts {Topology} w.
Arguments trace {Topology} w.

(** The default value [{}] of the parameter [extra_config] is one object per
    function, created when the module is loaded. *)
Definition sklearn_default_config : loc := 1%positive.
Definition lightgbm_default_config : loc := 2%positive.
Definition xgboost_default_config : loc := 3%positive.

(** The store right after the module is imported. *)
Definition init_world {Topology : Type} : world Topology :=
  World ∅
        (<[sklearn_default_config := ∅]>
           (<[lightgbm_default_config := ∅]>
              (<[xgboost_default_config := ∅]> ∅)))
        [].

Definition torch_msg : string :=
  "To use Hummingbird you need to instal torch.".
Definition lightgbm_msg : string :=
  "To convert LightGBM models you need to instal LightGBM.".
Definition xgboost_msg : string :=
  "To convert XGboost models you need to instal XGBoost.".
Definition not_ndarray_msg : string :=
  "XGBoost converter is not able to infer the number of input features.                    Apparently test_input is not an ndarray.                     Please fill an issue on https://github.com/microsoft/hummingbird/".
Definition no_test_input_msg : string :=
  "XGBoost converter is not able to infer the number of input features.                Please pass some test_input to the converter.".

Section Convert.
Context {Topology TensorProgram : Type}.
Variable E : Env Topology TensorProgram.

Definition M (A : Type) : Type :=
  world Topology -> world Topology * result A.

Definition ret {A : Type} (a : A) : M A := fun w => (w, Ok a).

Definition bind {A B : Type} (m : M A) (k : A -> M B) : M B :=
  fun w =>
    match m w with
    | (w', Ok a) => k a w'
    | (w', Raise e) => (w', Raise e)
    end.

Definition raise {A : Type} (e : exn) : M A := fun w => (w, Raise e).

Notation "'do' x <- m ; k" := (bind m (fun x => k))
  (at level 10, x name, m at level 100, k at level 200).

(** [assert b, msg] *)
Definition py_assert (b : bool) (msg : string) : M unit :=
  if b then ret tt else raise (AssertionError msg).

(** [deepcopy(model)], where it succeeds: a new object with the same
    attribute table. *)
Definition deepcopy (model : loc) : M loc :=
  fun w =>
    let l := fresh (dom (models w)) in
    (World (<[l := models w !!! model]> (models w)) (dicts w)
           (trace w ++ [EvDeepcopy model l]),
     Ok l).

(** [dir(model)]: the names in the object's attribute table. *)
Definition dir (o : pyobj) : gset string := dom o.

(** [name in dir(model)] *)
Definition in_dir (name : string) (model : loc) : M bool :=
  fun w => (w, Ok (bool_decide (name ∈ dir (models w !!! model)))).

(** [model.name], for an attribute that is a stored value. *)
Definition getattr (model : loc) (name : string) : M pyval :=
  fun w =>
    match (models w !!! model) !! name with
    | Some v => (w, Ok v)
    | None => (w, Raise (AttributeError name))
    end.

(** [d[k] = v] *)
Definition setitem (d : loc) (k : string) (v : pyval) : M unit :=
  fun w =>
    (World (models w) (<[d := <[k := v]> (dicts w !!! d)]> (dicts w))
           (trace w),
     Ok tt).

(** [parse_sklearn_api_model(model)]: runs the parser on the object behind
    [model], which it may rewrite. *)
Definition parse_sklearn_api_model (model : loc) : M Topology :=
  fun w =>
    let '(o, r) := parse_fn E (models w !!! model) in
    (World (<[model := o]> (models w)) (dicts w) (trace w ++ [EvParse model]),
     r).

(** [convert_topology(topology, device, extra_config)] *)
Definition convert_topology (topology : Topology) (device : pyval)
    (extra_config : loc) : M TensorProgram :=
  fun w =>
    (World (models w) (dicts w)
           (trace w ++ [EvLower topology device (dicts w !!! extra_config)]),
     lower_fn E topology device (dicts w !!! extra_config)).

(** ** The three entry points *)

(** An omitted [extra_config] ([None] here) is the function's own default
    dictionary. *)
Definition convert_sklearn (model : loc) (test_input : py_input)
    (device : pyval) (extra_config : option loc) : M TensorProgram :=
  let extra_config := default sklearn_default_config extra_config in
  do _ <- py_assert (torch_installed E) torch_msg;
  do model <- deepcopy model;
  do topology <- parse_sklearn_api_model model;
  do hb_model <- convert_topology topology device extra_config;
  ret hb_model.

Definition convert_lightgbm (model : loc) (test_input : py_input)
    (device : pyval) (extra_config : option loc) : M TensorProgram :=
  let extra_config := default lightgbm_default_config extra_config in
  do _ <- py_assert (lightgbm_installed E) lightgbm_msg;
  convert_sklearn model test_input device (Some extra_config).

Definition convert_xgboost (model : loc) (test_input : py_input)
    (device : pyval) (extra_config : option loc) : M TensorProgram :=
  let extra_config := default xgboost_default_config extra_config in
  do _ <- py_assert (xgboost_installed E) xgboost_msg;
  do has <- in_dir "_features_count" model;
  do _ <- (if has then
             do v <- getattr model "_features_count";
             setitem extra_config "n_features" v
           else if negb (is_None test_input) then
             if type_is_ndarray test_input
                && (length (shape test_input) =? 2)%nat
             then setitem extra_config "n_features"
                    (VInt (Z.of_nat (shape test_input !!! 1%nat)))
             else raise (RuntimeError not_ndarray_msg)
           else raise (RuntimeError no_test_input_msg));
  convert_sklearn model test_input device (Some extra_config).

(** ** Sequences of calls *)

Inductive call : Type :=
| CallSklearn (model : loc) (test_input : py_input) (device : pyval)
    (extra_config : option loc)
| CallLightgbm (model : loc) (test_input : py_input) (device : pyval)
    (extra_config : option loc)
| CallXgboost (model : loc) (test_input : py_input) (device : pyval)
    (extra_config : option loc).

Definition run_call (c : call) : M TensorProgram :=
  match c with
  | CallSklearn m t d ec => convert_sklearn m t d ec
  | CallLightgbm m t d ec => convert_lightgbm m t d ec
  | CallXgboost m t d ec => convert_xgboost m t d ec
  end.

(** The store after a sequence of calls, whatever each of them returned. *)
Fixpoint run_calls (cs : list call) (w : world Topology) : world Topology :=
  match cs with
  | [] => w
  | c :: cs => run_calls cs (run_call c w).1
  end.

(** The model a call was given, and the dictionary it uses as
    [extra_config]. *)
Definition model_of (c : call) : loc :=
  match c with
  | CallSklearn m _ _ _ | CallLightgbm m _ _ _ | CallXgboost m _ _ _ => m
  end.

Definition config_of (c : call) : loc :=
  match c with
  | CallSklearn _ _ _ ec => default sklearn_default_config ec
  | CallLightgbm _ _ _ ec => default lightgbm_default_config ec
  | CallXgboost _ _ _ ec => default xgboost_default_config ec
  end.

(** The [device] a call was given. *)
Definition device_of (c : call) : pyval :=
  match c with
  | CallSklearn _ _ d _ | CallLightgbm _ _ d _ | CallXgboost _ _ d _ => d
  end.

(** The store after [extra_config["n_features"] = v]. *)
Definition with_n_features (extra_config : loc) (v : pyval)
    (w : world Topology) : world Topology :=
  World (models w)
        (<[extra_config := <["n_features" := v]> (dicts w !!! extra_config)]>
           (dicts w))
        (trace w).

(** A call is given either no [extra_config] or a dictionary of the
    caller's, which is none of the three default objects. *)
Definition explicit_config (c : call) : option loc :=
  match c with
  | CallSklearn _ _ _ ec | CallLightgbm _ _ _ ec | CallXgboost _ _ _ ec => ec
  end.

Definition caller_owned (c : call) : Prop :=
  ∀ l, explicit_config c = Some l ->
       l ≠ sklearn_default_config
       ∧ l ≠ lightgbm_default_config
       ∧ l ≠ xgboost_default_config.

(** The entries of its [extra_config] a call can depend on:
    [convert_xgboost] assigns ["n_features"] before anything reads it. *)
Definition config_view (c : call) (w : world Topology) : pydict :=
  match c with
  | CallXgboost _ _ _ _ => delete "n_features" (dicts w !!! config_of c)
  | _ => dicts w !!! config_of c
  end.

End Convert.

(** A two-dimensional numeric array, of type [np.ndarray] or of a subclass
    of it. *)
Definition two_dim_numeric_array (t : py_input) : bool :=
  match t with
  | InNdarray dt s | InSubclass _ dt s => numeric dt && (length s =? 2)%nat
  | _ => false
  end.

(** ** A concrete environment

    The parser marks the object it was given and returns its attribute table
    as the topology; the lowering pass returns what it received. *)
Definition echo_env (torch lightgbm xgboost : bool)
  : Env pyobj (pyobj * pyval * pydict) :=
  {| torch_installed := torch;
     lightgbm_installed := lightgbm;
     xgboost_installed := xgboost;
     parse_fn := fun o => (<["_parsed" := VBool true]> o, Ok o);
     lower_fn := fun t d cfg => Ok (t, d, cfg) |}.

(** The exceptions the module raises itself, before [convert_sklearn]
    reaches [deepcopy]. *)
Definition check_failures : list exn :=
  [AssertionError torch_msg; AssertionError lightgbm_msg;
   AssertionError xgboost_msg; RuntimeError no_test_input_msg;
   RuntimeError not_ndarray_msg].



(** Two models and a dictionary held by the caller: a regressor at 10 that
    does not report its feature count, a classifier at 11 that does, and an
    empty dictionary at 20. *)
Definition regressor : pyobj := <["n_estimators" := VInt 3]> ∅.
Definition classifier : pyobj :=
  <["_features_count" := VInt 7]> (<["n_estimators" := VInt 3]> ∅).

Definition caller_world : world pyobj :=
  World (<[10%positive := regressor]> (<[11%positive := classifier]> ∅))
        (<[20%positive := ∅]> (dicts (@init_world pyobj)))
        [].

(** [np.array([["a", "b", "c"]])]: two-dimensional, not numeric. *)
Definition text_array : py_input := InNdarray StrT [1; 3]%nat.

(** [np.matrix(np.zeros((5, 7)))]: two-dimensional and numeric, of a
    subclass of [np.ndarray]. *)
Definition sample_matrix : py_input := InSubclass "matrix" Float64 [5; 7]%nat.

(** [np.zeros((5, 7))] and [np.zeros(5)]. *)
Definition sample_array : py_input := InNdarray Float64 [5; 7]%nat.
Definition flat_array : py_input := InNdarray Float64 [5]%nat.

(** Calls that share the caller's dictionary at 20, and one that omits
    [extra_config]. *)
Definition sklearn_call : call :=
  CallSklearn 10%positive InNone VNone (Some 20%positive).
Definition xgboost_call : call :=
  CallXgboost 11%positive InNone VNone (Some 20%positive).
Definition xgboost_call_default : call :=
  CallXgboost 11%positive InNone VNone None.
Definition xgboost_call_sample : call :=
  CallXgboost 10%positive sample_array VNone (Some 20%positive).

(** * Properties *)

Section Facts.
Context {Topology TensorProgram : Type}.
Variable E : Env Topology TensorProgram.
Implicit Types (w : world Topology) (m l cfg : loc) (t : py_input).
Implicit Types (d : pyval) (ec : option loc) (o : pyobj) (c : call).

(** ** [convert_sklearn], step by step *)

Lemma convert_sklearn_no_torch m t d ec w :
  torch_installed E = false ->
  convert_sklearn E m t d ec w = (w, Raise (AssertionError torch_msg)).
Proof. intros H. unfold convert_sklearn, py_assert, bind. by rewrite H. Qed.

Lemma convert_sklearn_torch m t d ec w :
  torch_installed E = true ->
  convert_sklearn E m t d ec w =
    let l : loc := fresh (dom (models w)) in
    let cfg := dicts w !!! default sklearn_default_config ec in
    let parsed := parse_fn E (models w !!! m) in
    let ms := <[l := parsed.1]> (<[l := models w !!! m]> (models w)) in
    let tr := ((trace w ++ [EvDeepcopy m l]) ++ [EvParse l])%list in
    match parsed.2 with
    | Ok topology =>
        (World ms (dicts w) (tr ++ [EvLower topology d cfg])%list,
         lower_fn E topology d cfg)
    | Raise e => (World ms (dicts w) tr, Raise e)
    end.
Proof.
  intros H. unfold convert_sklearn, py_assert, bind. rewrite H. cbn.
  unfold parse_sklearn_api_model. cbn. rewrite lookup_total_insert_eq.
  destruct (parse_fn E (models w !!! m)) as [o [topology|e]]; cbn; [|done].
  by destruct (lower_fn E topology d _).
Qed.

Lemma fresh_model_ne w l o :
  models w !! l = Some o -> fresh (dom (models w)) ≠ l.
Proof.
  intros Hl Heq. apply (is_fresh (dom (models w))).
  rewrite Heq. apply elem_of_dom. eauto.
Qed.

Lemma convert_sklearn_models m t d ec w l o :
  models w !! l = Some o ->
  models (convert_sklearn E m t d ec w).1 !! l = Some o.
Proof.
  intros Hl. destruct (torch_installed E) eqn:Ht.
  - rewrite convert_sklearn_torch by done. cbn.
    pose proof (fresh_model_ne _ _ _ Hl) as Hne.
    destruct (parse_fn E (models w !!! m)) as [o' [topology|e]]; cbn;
      by rewrite !lookup_insert_ne.
  - by rewrite convert_sklearn_no_torch.
Qed.

Lemma convert_sklearn_dicts m t d ec w :
  dicts (convert_sklearn E m t d ec w).1 = dicts w.
Proof.
  destruct (torch_installed E) eqn:Ht.
  - rewrite convert_sklearn_torch by done. cbn.
    by destruct (parse_fn E (models w !!! m)) as [o' [topology|e]].
  - by rewrite convert_sklearn_no_torch.
Qed.

Lemma convert_sklearn_result m t d ec w :
  (convert_sklearn E m t d ec w).2 =
    if torch_installed E then
      match (parse_fn E (models w !!! m)).2 with
      | Ok topology =>
          lower_fn E topology d (dicts w !!! default sklearn_default_config ec)
      | Raise e => Raise e
      end
    else Raise (AssertionError torch_msg).
Proof.
  destruct (torch_installed E) eqn:Ht.
  - rewrite convert_sklearn_torch by done. cbn.
    by destruct (parse_fn E (models w !!! m)) as [o' [topology|e]].
  - by rewrite convert_sklearn_no_torch.
Qed.

(** The events of one call: the parser only ever sees an object that did
    not exist before the call, and the lowering pass sees the entries of
    [extra_config]. *)
Lemma convert_sklearn_trace m t d ec w :
  ∃ evs, trace (convert_sklearn E m t d ec w).1 = (trace w ++ evs)%list
    ∧ (∀ l, EvParse l ∈ evs -> l ∉ dom (models w))
    ∧ (∀ topology d' entries, EvLower topology d' entries ∈ evs ->
         d' = d ∧ entries = dicts w !!! default sklearn_default_config ec).
Proof.
  destruct (torch_installed E) eqn:Ht.
  - rewrite convert_sklearn_torch by done. cbn.
    destruct (parse_fn E (models w !!! m)) as [o' [topology|e]]; cbn.
    + exists [EvDeepcopy m (fresh (dom (models w)));
              EvParse (fresh (dom (models w)));
              EvLower topology d
                (dicts w !!! default sklearn_default_config ec)].
      split; [by rewrite <- !(assoc_L app)|].
      split; intros *; rewrite !elem_of_cons, elem_of_nil.
      * intros [?|[[= ->]|[?|[]]]]; try done. apply is_fresh.
      * intros [?|[?|[[= -> -> ->]|[]]]]; done.
    + exists [EvDeepcopy m (fresh (dom (models w)));
              EvParse (fresh (dom (models w)))].
      split; [by rewrite <- !(assoc_L app)|].
      split; intros *; rewrite !elem_of_cons, elem_of_nil.
      * intros [?|[[= ->]|[]]]; try done. apply is_fresh.
      * intros [?|[?|[]]]; done.
  - rewrite convert_sklearn_no_torch by done. exists []. cbn.
    split; [by rewrite app_nil_r|].
    split; intros *; rewrite elem_of_nil; done.
Qed.

(** C10: [convert_sklearn] never reads [test_input]: whatever is passed for
    it, the call returns the same result and leaves the same store. *)
Theorem convert_sklearn_ignores_test_input m t1 t2 d ec w :
  convert_sklearn E m t1 d ec w = convert_sklearn E m t2 d ec w.
Proof. reflexivity. Qed.

(** C8: when LightGBM is installed, [convert_lightgbm] called with the four
    arguments is [convert_sklearn] called with the same four arguments: same
    result, same store afterwards. *)
Theorem convert_lightgbm_forwards m t d cfg w :
  lightgbm_installed E = true ->
  convert_lightgbm E m t d (Some cfg) w = convert_sklearn E m t d (Some cfg) w.
Proof. intros H. unfold convert_lightgbm, py_assert, bind. by rewrite H. Qed.

(** With [extra_config] omitted, [convert_lightgbm] forwards its own default
    dictionary. *)
Lemma convert_lightgbm_forwards_default m t d w :
  lightgbm_installed E = true ->
  convert_lightgbm E m t d None w =
    convert_sklearn E m t d (Some lightgbm_default_config) w.
Proof. intros H. unfold convert_lightgbm, py_assert, bind. by rewrite H. Qed.

Lemma convert_lightgbm_missing m t d ec w :
  lightgbm_installed E = false ->
  convert_lightgbm E m t d ec w = (w, Raise (AssertionError lightgbm_msg)).
Proof. intros H. unfold convert_lightgbm, py_assert, bind. by rewrite H. Qed.

(** ** [convert_xgboost], branch by branch *)

Lemma convert_xgboost_missing m t d ec w :
  xgboost_installed E = false ->
  convert_xgboost E m t d ec w = (w, Raise (AssertionError xgboost_msg)).
Proof. intros H. unfold convert_xgboost, py_assert, bind. by rewrite H. Qed.

Lemma convert_xgboost_installed m t d ec w :
  xgboost_installed E = true ->
  convert_xgboost E m t d ec w =
    let cfg := default xgboost_default_config ec in
    match (models w !!! m) !! "_features_count" with
    | Some v => convert_sklearn E m t d (Some cfg) (with_n_features cfg v w)
    | None =>
        if is_None t then (w, Raise (RuntimeError no_test_input_msg))
        else if type_is_ndarray t && (length (shape t) =? 2)%nat
        then convert_sklearn E m t d (Some cfg)
               (with_n_features cfg (VInt (Z.of_nat (shape t !!! 1%nat))) w)
        else (w, Raise (RuntimeError not_ndarray_msg))
    end.
Proof.
  intros H. unfold convert_xgboost, py_assert, bind, in_dir, getattr, dir.
  rewrite H. cbn.
  destruct ((models w !!! m) !! "_features_count") as [v|] eqn:Hfc.
  - rewrite bool_decide_eq_true_2 by (apply elem_of_dom; eauto).
    by rewrite Hfc.
  - rewrite bool_decide_eq_false_2
      by (rewrite elem_of_dom, Hfc; by intros [? ?]).
    destruct (is_None t); cbn; [done|].
    by destruct (type_is_ndarray t && _).
Qed.

(** Either the call stops before [convert_sklearn] and leaves the store as
    it was, or it is [convert_sklearn] run after one assignment to
    [extra_config]. *)
Lemma convert_xgboost_cases m t d ec w :
  let cfg := default xgboost_default_config ec in
  (∃ e, convert_xgboost E m t d ec w = (w, Raise e)
        ∧ (e = AssertionError xgboost_msg
           ∨ e = RuntimeError no_test_input_msg
           ∨ e = RuntimeError not_ndarray_msg))
  ∨ (∃ v, convert_xgboost E m t d ec w =
            convert_sklearn E m t d (Some cfg) (with_n_features cfg v w)).
Proof.
  cbn. destruct (xgboost_installed E) eqn:Hx.
  - rewrite convert_xgboost_installed by done. cbn.
    destruct ((models w !!! m) !! "_features_count") as [v|]; [eauto|].
    destruct (is_None t); [eauto 6|].
    destruct (type_is_ndarray t && _); eauto 7.
  - rewrite convert_xgboost_missing by done. eauto 6.
Qed.

(** ** Any call *)

Lemma run_call_models c w l o :
  models w !! l = Some o -> models (run_call E c w).1 !! l = Some o.
Proof.
  intros Hl. destruct c as [m t d ec|m t d ec|m t d ec]; cbn.
  - by apply convert_sklearn_models.
  - destruct (lightgbm_installed E) eqn:Hg.
    + unfold convert_lightgbm, py_assert, bind. rewrite Hg. cbn.
      by apply convert_sklearn_models.
    + by rewrite convert_lightgbm_missing.
  - destruct (convert_xgboost_cases m t d ec w) as [(e & -> & _)|(v & ->)];
      [done|].
    by apply convert_sklearn_models.
Qed.

Lemma run_call_events c w :
  ∃ evs, trace (run_call E c w).1 = (trace w ++ evs)%list
    ∧ (∀ l, EvParse l ∈ evs -> l ∉ dom (models w))
    ∧ (∀ topology d entries, EvLower topology d entries ∈ evs ->
         entries = dicts (run_call E c w).1 !!! config_of c).
Proof.
  assert (Hnil : ∃ evs : list (event Topology),
             trace w = (trace w ++ evs)%list
             ∧ (∀ l, EvParse l ∈ evs -> l ∉ dom (models w))
             ∧ (∀ topology d entries, EvLower topology d entries ∈ evs ->
                  entries = dicts w !!! config_of c)).
  { exists []. split; [by rewrite app_nil_r|].
    split; intros *; rewrite elem_of_nil; done. }
  destruct c as [m t d ec|m t d ec|m t d ec]; cbn.
  - destruct (convert_sklearn_trace m t d ec w) as (evs & Htr & Hp & Hl).
    exists evs. rewrite convert_sklearn_dicts.
    split; [done|]. split; [done|]. intros * Hin. by apply Hl in Hin as [_ ->].
  - destruct (lightgbm_installed E) eqn:Hg.
    + unfold convert_lightgbm, py_assert, bind. rewrite Hg. cbn.
      destruct (convert_sklearn_trace m t d
                  (Some (default lightgbm_default_config ec)) w)
        as (evs & Htr & Hp & Hl).
      exists evs. rewrite convert_sklearn_dicts.
      split; [done|]. split; [done|].
      intros * Hin. by apply Hl in Hin as [_ ->].
    + by rewrite convert_lightgbm_missing.
  - destruct (convert_xgboost_cases m t d ec w) as [(e & -> & _)|(v & ->)];
      [done|].
    destruct (convert_sklearn_trace m t d
                (Some (default xgboost_default_config ec))
                (with_n_features (default xgboost_default_config ec) v w))
      as (evs & Htr & Hp & Hl).
    exists evs. rewrite convert_sklearn_dicts.
    split; [done|]. split; [done|].
    intros * Hin. by apply Hl in Hin as [_ ->].
Qed.


(** ** Feature-count inference *)

Lemma with_n_features_lookup cfg v w :
  (dicts (with_n_features cfg v w) !!! cfg) !! "n_features" = Some v.
Proof. cbn. by rewrite lookup_total_insert_eq, lookup_insert_eq. Qed.

(** What [convert_xgboost] leaves in [extra_config], and hands to the
    lowering pass, once it has assigned [v] to ["n_features"]. *)
Lemma convert_sklearn_after_assignment m t d cfg v w :
  let w' := (convert_sklearn E m t d (Some cfg) (with_n_features cfg v w)).1 in
  (dicts w' !!! cfg) !! "n_features" = Some v
  ∧ ∃ evs, trace w' = (trace w ++ evs)%list
           ∧ ∀ topology d' entries, EvLower topology d' entries ∈ evs ->
               entries !! "n_features" = Some v.
Proof.
  cbn. rewrite convert_sklearn_dicts. split; [apply with_n_features_lookup|].
  destruct (convert_sklearn_trace m t d (Some cfg) (with_n_features cfg v w))
    as (evs & Htr & _ & Hl).
  exists evs. split; [done|]. intros * Hin. apply Hl in Hin as [_ ->].
  apply with_n_features_lookup.
Qed.

(** C3, as the code has it: for a model that does not list
    [_features_count] and a [test_input] whose type is exactly [np.ndarray],
    of shape (k, n) and of any element type, [convert_xgboost] (XGBoost being
    installed) leaves [extra_config["n_features"] = n], and that is the
    value every lowering step of the call receives. *)
Theorem xgboost_feature_count_from_test_input m dt k n d ec w :
  xgboost_installed E = true ->
  "_features_count" ∉ dir (models w !!! m) ->
  let cfg := default xgboost_default_config ec in
  let w' := (convert_xgboost E m (InNdarray dt [k; n]) d ec w).1 in
  (dicts w' !!! cfg) !! "n_features" = Some (VInt (Z.of_nat n))
  ∧ ∃ evs, trace w' = (trace w ++ evs)%list
           ∧ ∀ topology d' entries, EvLower topology d' entries ∈ evs ->
               entries !! "n_features" = Some (VInt (Z.of_nat n)).
Proof.
  intros Hx Hdir. cbn zeta. rewrite convert_xgboost_installed by done. cbn.
  destruct ((models w !!! m) !! "_features_count") as [v|] eqn:Hfc.
  { exfalso. apply Hdir, elem_of_dom. eauto. }
  apply convert_sklearn_after_assignment.
Qed.

(** C5: for a model whose [_features_count] is [v], [convert_xgboost]
    (XGBoost being installed) leaves [extra_config["n_features"] = v], hands
    that value to the lowering pass, and does the same whatever
    [test_input] is. *)
Theorem xgboost_feature_count_self_reported m t d ec w v :
  xgboost_installed E = true ->
  (models w !!! m) !! "_features_count" = Some v ->
  let cfg := default xgboost_default_config ec in
  let w' := (convert_xgboost E m t d ec w).1 in
  (dicts w' !!! cfg) !! "n_features" = Some v
  ∧ (∃ evs, trace w' = (trace w ++ evs)%list
            ∧ ∀ topology d' entries, EvLower topology d' entries ∈ evs ->
                entries !! "n_features" = Some v)
  ∧ ∀ t', convert_xgboost E m t' d ec w = convert_xgboost E m t d ec w.
Proof.
  intros Hx Hfc. cbn zeta. rewrite (convert_xgboost_installed m t) by done.
  cbn. rewrite Hfc.
  destruct (convert_sklearn_after_assignment m t d
              (default xgboost_default_config ec) v w) as [Hd Htr].
  split; [done|]. split; [done|].
  intros t'. rewrite convert_xgboost_installed by done. cbn. by rewrite Hfc.
Qed.

(** C4, as the code has it: for a model that does not list
    [_features_count], when [test_input] is [None], or is not an object of
    type ndarray with a shape of length two (whatever its element type),
    [convert_xgboost] raises [RuntimeError] with the message of the branch
    taken and leaves the store as it was: no assignment, no copy, no
    parsing, no lowering. *)
Theorem xgboost_inference_failure m t d ec w :
  xgboost_installed E = true ->
  "_features_count" ∉ dir (models w !!! m) ->
  type_is_ndarray t && (length (shape t) =? 2)%nat = false ->
  convert_xgboost E m t d ec w =
    (w, Raise (RuntimeError (if is_None t then no_test_input_msg
                             else not_ndarray_msg))).
Proof.
  intros Hx Hdir Hnd. rewrite convert_xgboost_installed by done. cbn.
  destruct ((models w !!! m) !! "_features_count") as [v|] eqn:Hfc.
  { exfalso. apply Hdir, elem_of_dom. eauto. }
  rewrite Hnd. by destruct (is_None t).
Qed.

(** ** Without the tensor runtime *)


(** ** [extra_config] *)

Lemma run_call_dicts c w :
  dicts (run_call E c w).1 =
    match c with
    | CallSklearn _ _ _ _ | CallLightgbm _ _ _ _ => dicts w
    | CallXgboost m t _ ec =>
        let cfg := default xgboost_default_config ec in
        if xgboost_installed E then
          match (models w !!! m) !! "_features_count" with
          | Some v => <[cfg := <["n_features" := v]> (dicts w !!! cfg)]> (dicts w)
          | None =>
              if type_is_ndarray t && (length (shape t) =? 2)%nat
              then <[cfg := <["n_features" := VInt (Z.of_nat (shape t !!! 1%nat))]>
                               (dicts w !!! cfg)]> (dicts w)
              else dicts w
          end
        else dicts w
    end.
Proof.
  destruct c as [m t d ec|m t d ec|m t d ec]; cbn.
  - apply convert_sklearn_dicts.
  - destruct (lightgbm_installed E) eqn:Hg.
    + unfold convert_lightgbm, py_assert, bind. rewrite Hg. cbn.
      apply convert_sklearn_dicts.
    + by rewrite convert_lightgbm_missing.
  - destruct (xgboost_installed E) eqn:Hx.
    + rewrite convert_xgboost_installed by done. cbn.
      destruct ((models w !!! m) !! "_features_count") as [v|].
      { by rewrite convert_sklearn_dicts. }
      destruct t as [|dt s|name|name dt s]; cbn; [done| |done|done].
      destruct (length s =? 2)%nat; [|done].
      by rewrite convert_sklearn_dicts.
    + by rewrite convert_xgboost_missing.
Qed.

(** C7, as the code has it: [convert_sklearn] and [convert_lightgbm] leave
    every dictionary as it was; [convert_xgboost], once XGBoost is found
    and a feature count is inferred, leaves [extra_config] with
    ["n_features"] set to that count and its other entries as they were, and
    otherwise leaves it as it was. The lowering pass receives the entries
    [extra_config] holds when the call ends. *)
Theorem extra_config_after_call c w :
  dicts (run_call E c w).1 =
    match c with
    | CallSklearn _ _ _ _ | CallLightgbm _ _ _ _ => dicts w
    | CallXgboost m t _ ec =>
        let cfg := default xgboost_default_config ec in
        if xgboost_installed E then
          match (models w !!! m) !! "_features_count" with
          | Some v => <[cfg := <["n_features" := v]> (dicts w !!! cfg)]> (dicts w)
          | None =>
              if type_is_ndarray t && (length (shape t) =? 2)%nat
              then <[cfg := <["n_features" := VInt (Z.of_nat (shape t !!! 1%nat))]>
                               (dicts w !!! cfg)]> (dicts w)
              else dicts w
          end
        else dicts w
    end
  ∧ ∃ evs, trace (run_call E c w).1 = (trace w ++ evs)%list
           ∧ ∀ topology d entries, EvLower topology d entries ∈ evs ->
               entries = dicts (run_call E c w).1 !!! config_of c.
Proof.
  split; [apply run_call_dicts|].
  destruct (run_call_events c w) as (evs & Htr & _ & Hl). eauto.
Qed.

(** ** Calls in sequence *)

Lemma run_call_result_ext c w1 w2 :
  models w1 !!! model_of c = models w2 !!! model_of c ->
  config_view c w1 = config_view c w2 ->
  (run_call E c w1).2 = (run_call E c w2).2.
Proof.
  intros Hm Hc. destruct c as [m t d ec|m t d ec|m t d ec]; cbn in *.
  - rewrite !convert_sklearn_result. by rewrite Hm, Hc.
  - destruct (lightgbm_installed E) eqn:Hg.
    + unfold convert_lightgbm, py_assert, bind. rewrite Hg. cbn.
      rewrite !convert_sklearn_result. cbn. by rewrite Hm, Hc.
    + by rewrite !convert_lightgbm_missing.
  - destruct (xgboost_installed E) eqn:Hx.
    + rewrite !convert_xgboost_installed by done. cbn. rewrite Hm.
      assert (Hins : ∀ v,
        (convert_sklearn E m t d (Some (default xgboost_default_config ec))
           (with_n_features (default xgboost_default_config ec) v w1)).2 =
        (convert_sklearn E m t d (Some (default xgboost_default_config ec))
           (with_n_features (default xgboost_default_config ec) v w2)).2).
      { intros v. rewrite !convert_sklearn_result. cbn.
        rewrite !lookup_total_insert_eq, Hm.
        rewrite <- (insert_delete_eq (dicts w1 !!! _)).
        rewrite <- (insert_delete_eq (dicts w2 !!! _)).
        by rewrite Hc. }
      destruct ((models w2 !!! m) !! "_features_count") as [v|]; [done|].
      destruct (is_None t); [done|].
      by destruct (type_is_ndarray t && _).
    + by rewrite !convert_xgboost_missing.
Qed.

(** A call changes at most the entry ["n_features"] of the dictionary it
    uses as [extra_config]. *)
Lemma run_call_dicts_cases c w :
  dicts (run_call E c w).1 = dicts w
  ∨ ∃ v, dicts (run_call E c w).1 =
           <[config_of c := <["n_features" := v]> (dicts w !!! config_of c)]>
             (dicts w)
         ∧ config_of c = default xgboost_default_config (explicit_config c).
Proof.
  rewrite run_call_dicts. destruct c as [m t d ec|m t d ec|m t d ec]; cbn;
    [by left|by left|].
  destruct (xgboost_installed E); [|by left].
  destruct ((models w !!! m) !! "_features_count") as [v|]; [eauto|].
  destruct (type_is_ndarray t && _); eauto.
Qed.

(** What the three default dictionaries can contribute to a later call
    does not change under calls that were given no [extra_config] or one of
    the caller's own. *)
Lemma run_call_defaults c w :
  caller_owned c ->
  dicts (run_call E c w).1 !!! sklearn_default_config
    = dicts w !!! sklearn_default_config
  ∧ dicts (run_call E c w).1 !!! lightgbm_default_config
    = dicts w !!! lightgbm_default_config
  ∧ delete "n_features" (dicts (run_call E c w).1 !!! xgboost_default_config)
    = delete "n_features" (dicts w !!! xgboost_default_config).
Proof.
  intros Hown.
  destruct (run_call_dicts_cases c w) as [->|(v & -> & Hcfg)]; [done|].
  rewrite Hcfg. destruct (explicit_config c) as [l|] eqn:Hec; cbn.
  - destruct (Hown l Hec) as (H1 & H2 & H3).
    by rewrite !lookup_total_insert_ne.
  - rewrite !lookup_total_insert_ne by done.
    by rewrite lookup_total_insert_eq, delete_insert_eq.
Qed.

Lemma run_calls_defaults cs w :
  Forall caller_owned cs ->
  dicts (run_calls E cs w) !!! sklearn_default_config
    = dicts w !!! sklearn_default_config
  ∧ dicts (run_calls E cs w) !!! lightgbm_default_config
    = dicts w !!! lightgbm_default_config
  ∧ delete "n_features" (dicts (run_calls E cs w) !!! xgboost_default_config)
    = delete "n_features" (dicts w !!! xgboost_default_config).
Proof.
  intros Hcs. revert w. induction Hcs as [|c cs Hc _ IH]; intros w; [done|].
  cbn. destruct (IH (run_call E c w).1) as (-> & -> & ->).
  by apply run_call_defaults.
Qed.

Lemma run_calls_models cs w l o :
  models w !! l = Some o -> models (run_calls E cs w) !! l = Some o.
Proof.
  revert w. induction cs as [|c cs IH]; intros w Hl; [done|].
  cbn. by apply IH, run_call_models.
Qed.

(** X12: a call that omits [extra_config] returns the same result after
    any sequence of earlier calls that were given no [extra_config] or a
    dictionary of the caller's. *)
Lemma omitted_config_history_independent c cs w o :
  explicit_config c = None ->
  Forall caller_owned cs ->
  models w !! model_of c = Some o ->
  (run_call E c (run_calls E cs w)).2 = (run_call E c w).2.
Proof.
  intros Hec Hcs Hm. apply run_call_result_ext.
  - rewrite !lookup_total_alt. by rewrite (run_calls_models cs w _ o), Hm.
  - destruct (run_calls_defaults cs w Hcs) as (H1 & H2 & H3).
    destruct c as [m t d ec|m t d ec|m t d ec]; cbn in *; by subst ec.
Qed.


End Facts.

(** * The properties on concrete calls *)

Lemma regressor_has_no_feature_count :
  "_features_count" ∉ dir (models caller_world !!! 10%positive).
Proof. apply not_elem_of_dom. reflexivity. Qed.

Lemma convert_lightgbm_forwards_witness :
  convert_lightgbm (echo_env true true true) 10%positive InNone VNone
    (Some 20%positive) caller_world
  = convert_sklearn (echo_env true true true) 10%positive InNone VNone
      (Some 20%positive) caller_world.
Proof.
  apply (convert_lightgbm_forwards (echo_env true true true)). reflexivity.
Defined.


(** The parser of [echo_env] does rewrite the object it is given: the copy
    at the fresh location 12 is marked, the caller's model is not. *)
Lemma parser_rewrites_the_copy :
  models (run_call (echo_env true true true) sklearn_call caller_world).1
    !! 12%positive = Some (<["_parsed" := VBool true]> regressor)
  ∧ models (run_call (echo_env true true true) sklearn_call caller_world).1
      !! 10%positive = Some regressor
  ∧ trace (run_call (echo_env true true true) sklearn_call caller_world).1
    = [EvDeepcopy 10%positive 12%positive; EvParse 12%positive;
       EvLower regressor VNone ∅].
Proof. vm_compute. done. Qed.

Lemma xgboost_feature_count_from_test_input_witness :
  (dicts (convert_xgboost (echo_env true true true) 10%positive
            (InNdarray Float64 [5; 7]%nat) VNone (Some 20%positive)
            caller_world).1 !!! 20%positive) !! "n_features"
  = Some (VInt 7).
Proof.
  apply (xgboost_feature_count_from_test_input (echo_env true true true)
           10%positive Float64 5%nat 7%nat VNone (Some 20%positive)
           caller_world).
  - reflexivity.
  - apply not_elem_of_dom. reflexivity.
Defined.

Lemma xgboost_feature_count_self_reported_witness :
  (dicts (convert_xgboost (echo_env true true true) 11%positive InNone VNone
            (Some 20%positive) caller_world).1 !!! 20%positive)
    !! "n_features"
  = Some (VInt 7).
Proof.
  apply (xgboost_feature_count_self_reported (echo_env true true true)
           11%positive InNone VNone (Some 20%positive) caller_world (VInt 7)).
  - reflexivity.
  - reflexivity.
Defined.

Lemma xgboost_inference_failure_witness :
  convert_xgboost (echo_env true true true) 10%positive flat_array VNone
    (Some 20%positive) caller_world
  = (caller_world, Raise (RuntimeError not_ndarray_msg)).
Proof.
  apply (xgboost_inference_failure (echo_env true true true) 10%positive
           flat_array VNone (Some 20%positive) caller_world).
  - reflexivity.
  - apply not_elem_of_dom. reflexivity.
  - reflexivity.
Defined.



(** C3 as stated fails: [sample_matrix] is a two-dimensional numeric array
    of shape (5, 7) and the model does not report its feature count, yet
    [convert_xgboost] raises [RuntimeError] and writes no ["n_features"]:
    the type of [sample_matrix] is not [np.ndarray] itself. *)
Lemma matrix_is_rejected :
  xgboost_installed (echo_env true true true) = true
  ∧ ("_features_count" ∉ dir (models caller_world !!! 10%positive))
  ∧ two_dim_numeric_array sample_matrix = true
  ∧ shape sample_matrix = [5; 7]%nat
  ∧ convert_xgboost (echo_env true true true) 10%positive sample_matrix VNone
      (Some 20%positive) caller_world
    = (caller_world, Raise (RuntimeError not_ndarray_msg))
  ∧ (dicts (convert_xgboost (echo_env true true true) 10%positive
              sample_matrix VNone (Some 20%positive) caller_world).1
       !!! 20%positive) !! "n_features" = None.
Proof.
  split; [reflexivity|]. split; [apply regressor_has_no_feature_count|].
  split; [reflexivity|]. split; [reflexivity|]. split; reflexivity.
Qed.

(** C4 as stated fails: [text_array] is not a two-dimensional numeric array,
    the model does not report its feature count, and [convert_xgboost]
    raises nothing: it takes the feature count 3 from the shape and
    converts. *)
Lemma text_array_is_accepted :
  xgboost_installed (echo_env true true true) = true
  ∧ ("_features_count" ∉ dir (models caller_world !!! 10%positive))
  ∧ two_dim_numeric_array text_array = false
  ∧ (convert_xgboost (echo_env true true true) 10%positive text_array VNone
       (Some 20%positive) caller_world).2
    = Ok (regressor, VNone, <["n_features" := VInt 3]> ∅)
  ∧ ¬ ∃ e, (convert_xgboost (echo_env true true true) 10%positive text_array
              VNone (Some 20%positive) caller_world).2 = Raise e.
Proof.
  split; [reflexivity|]. split; [apply regressor_has_no_feature_count|].
  split; [reflexivity|]. split; [vm_compute; reflexivity|].
  intros [e He]. vm_compute in He. discriminate He.
Qed.


(** C7 as stated fails: the caller's dictionary is empty before
    [xgboost_call] and holds ["n_features"] after it. *)
Lemma convert_xgboost_writes_extra_config :
  dicts caller_world !!! 20%positive = (∅ : pydict)
  ∧ dicts (run_call (echo_env true true true) xgboost_call caller_world).1
      !!! 20%positive
    = <["n_features" := VInt 7]> (∅ : pydict)
  ∧ dicts (run_call (echo_env true true true) xgboost_call caller_world).1
      !!! 20%positive
    ≠ dicts caller_world !!! 20%positive.
Proof.
  split; [reflexivity|]. split; [vm_compute; reflexivity|].
  intros Heq.
  apply (f_equal (fun entries : pydict => entries !! "n_features")) in Heq.
  vm_compute in Heq. discriminate Heq.
Qed.


(** * What a call does, step by step *)

Section Outcome.
Context {Topology TensorProgram : Type}.
Variable E : Env Topology TensorProgram.
Implicit Types (w : world Topology) (m l cfg : loc) (t : py_input).
Implicit Types (d : pyval) (ec : option loc) (o : pyobj) (c : call).

(** The three ways [convert_sklearn] can end: at the torch check, at the
    parser, or after the lowering pass. *)
Lemma convert_sklearn_outcome m t d ec w :
  let l : loc := fresh (dom (models w)) in
  let entries := dicts w !!! default sklearn_default_config ec in
  let w' := (convert_sklearn E m t d ec w).1 in
  let r := (convert_sklearn E m t d ec w).2 in
  (r = Raise (AssertionError torch_msg) ∧ w' = w)
  ∨ (∃ e, (parse_fn E (models w !!! m)).2 = Raise e ∧ r = Raise e
          ∧ trace w' = (trace w ++ [EvDeepcopy m l; EvParse l])%list)
  ∨ (torch_installed E = true
     ∧ ∃ topology, (parse_fn E (models w !!! m)).2 = Ok topology
          ∧ r = lower_fn E topology d entries
          ∧ trace w' = (trace w ++ [EvDeepcopy m l; EvParse l;
                                    EvLower topology d entries])%list).
Proof.
  cbn zeta. destruct (torch_installed E) eqn:Ht.
  - rewrite convert_sklearn_torch by done. cbn.
    destruct (parse_fn E (models w !!! m)) as [o' [topology|e]]; cbn.
    + right. right. split; [done|]. exists topology.
      by rewrite <- !(assoc_L app).
    + right. left. exists e. by rewrite <- !(assoc_L app).
  - rewrite convert_sklearn_no_torch by done. by left.
Qed.

(** The same for any entry point: the call stops at one of the module's own
    checks, or at the parser, or runs the lowering pass once. *)
Lemma run_call_outcome c w :
  let l : loc := fresh (dom (models w)) in
  let w' := (run_call E c w).1 in
  let r := (run_call E c w).2 in
  let entries := dicts w' !!! config_of c in
  (∃ e, r = Raise e ∧ e ∈ check_failures ∧ trace w' = trace w)
  ∨ (∃ e, (parse_fn E (models w !!! model_of c)).2 = Raise e ∧ r = Raise e
          ∧ trace w' = (trace w ++ [EvDeepcopy (model_of c) l;
                                    EvParse l])%list)
  ∨ (torch_installed E = true
     ∧ ∃ topology, (parse_fn E (models w !!! model_of c)).2 = Ok topology
          ∧ r = lower_fn E topology (device_of c) entries
          ∧ trace w' = (trace w ++ [EvDeepcopy (model_of c) l; EvParse l;
                                    EvLower topology (device_of c) entries])%list).
Proof.
  assert (Hsk : ∀ m t d cfg w0,
            models w0 = models w -> trace w0 = trace w ->
            let w' := (convert_sklearn E m t d (Some cfg) w0).1 in
            let r := (convert_sklearn E m t d (Some cfg) w0).2 in
            (∃ e, r = Raise e ∧ e ∈ check_failures ∧ trace w' = trace w)
            ∨ (∃ e, (parse_fn E (models w !!! m)).2 = Raise e ∧ r = Raise e
                 ∧ trace w' = (trace w ++ [EvDeepcopy m (fresh (dom (models w)));
                                 EvParse (fresh (dom (models w)))])%list)
            ∨ (torch_installed E = true
               ∧ ∃ topology, (parse_fn E (models w !!! m)).2 = Ok topology
                  ∧ r = lower_fn E topology d (dicts w' !!! cfg)
                  ∧ trace w' = (trace w ++ [EvDeepcopy m (fresh (dom (models w)));
                                  EvParse (fresh (dom (models w)));
                                  EvLower topology d (dicts w' !!! cfg)])%list)).
  { intros m t d cfg w0 Hm Htr. cbn zeta. rewrite convert_sklearn_dicts.
    destruct (convert_sklearn_outcome m t d (Some cfg) w0)
      as [ [-> ->] | [ (e & Hp & -> & ->) | (Ht & topology & Hp & -> & ->) ] ];
      cbn in *; rewrite ?Hm, ?Htr in *.
    - left. exists (AssertionError torch_msg). split; [done|].
      split; [|done]. unfold check_failures. repeat constructor.
    - right. left. eauto.
    - right. right. eauto. }
  assert (Hfail : ∀ e, e ∈ check_failures ->
            ∃ e', Raise (A:=TensorProgram) e = Raise e'
                  ∧ e' ∈ check_failures ∧ trace w = trace w) by eauto.
  destruct c as [m t d ec|m t d ec|m t d ec]; cbn -[check_failures].
  - destruct ec as [cfg|]; [by apply Hsk|].
    apply (Hsk m t d sklearn_default_config w); done.
  - destruct (lightgbm_installed E) eqn:Hg.
    + unfold convert_lightgbm, py_assert, bind. rewrite Hg.
      cbn -[check_failures]. by apply Hsk.
    + rewrite convert_lightgbm_missing by done. left. cbn.
      apply Hfail. unfold check_failures. repeat constructor.
  - destruct (convert_xgboost_cases E m t d ec w)
      as [ (e & -> & He) | (v & ->) ]; cbn -[check_failures].
    + left. apply Hfail. unfold check_failures.
      destruct He as [-> | [-> | ->] ]; repeat constructor.
    + by apply Hsk.
Qed.


(** X2: a program is returned only with torch installed, and it is the
    program the lowering pass produced from the topology parsed out of the
    model's attributes, the call's [device] and the entries [extra_config]
    holds when the call ends; the call ran one copy, one parse and one
    lowering, in that order. *)
Theorem returned_program_comes_from_lowering c w p :
  (run_call E c w).2 = Ok p ->
  torch_installed E = true
  ∧ ∃ topology,
      (parse_fn E (models w !!! model_of c)).2 = Ok topology
      ∧ lower_fn E topology (device_of c)
          (dicts (run_call E c w).1 !!! config_of c) = Ok p
      ∧ trace (run_call E c w).1 =
          (trace w ++ [EvDeepcopy (model_of c) (fresh (dom (models w)));
                       EvParse (fresh (dom (models w)));
                       EvLower topology (device_of c)
                         (dicts (run_call E c w).1 !!! config_of c)])%list.
Proof.
  intros Hok.
  destruct (run_call_outcome c w)
    as [ (e' & Hr & _) | [ (e' & _ & Hr & _)
                         | (Ht & topology & Hp & Hr & Htr) ] ];
    [congruence|congruence|].
  split; [done|]. exists topology. split; [done|]. split; [congruence|done].
Qed.

(** X4: the events of a call are, in this order, at most one copy of the
    call's model into a new object, one parse of that new object, and one
    lowering, with the call's [device]. *)
Theorem events_of_a_call c w :
  let l : loc := fresh (dom (models w)) in
  (l ∉ dom (models w))
  ∧ ∃ evs, trace (run_call E c w).1 = (trace w ++ evs)%list
      ∧ (evs = []
         ∨ evs = [EvDeepcopy (model_of c) l; EvParse l]
         ∨ ∃ topology,
             evs = [EvDeepcopy (model_of c) l; EvParse l;
                    EvLower topology (device_of c)
                      (dicts (run_call E c w).1 !!! config_of c)]).
Proof.
  cbn zeta. split; [apply is_fresh|].
  destruct (run_call_outcome c w)
    as [ (e' & _ & _ & Htr) | [ (e' & _ & _ & Htr)
                              | (_ & topology & _ & _ & Htr) ] ].
  - exists []. rewrite app_nil_r. by split; [|left].
  - eexists. split; [exact Htr|]. right. by left.
  - eexists. split; [exact Htr|]. right. right. by exists topology.
Qed.

(** X5: a call changes no dictionary other than the one it uses as
    [extra_config], and in that one no entry other than ["n_features"]. *)
Theorem other_entries_untouched c w l k :
  l ≠ config_of c ∨ k ≠ "n_features" ->
  (dicts (run_call E c w).1 !!! l) !! k = (dicts w !!! l) !! k.
Proof.
  intros Hne.
  destruct (run_call_dicts_cases E c w) as [->|(v & -> & _)]; [done|].
  destruct (decide (l = config_of c)) as [->|Hl].
  - destruct Hne as [?|Hk]; [done|].
    by rewrite lookup_total_insert_eq, lookup_insert_ne.
  - by rewrite lookup_total_insert_ne.
Qed.

(** X6: repeating a call right away changes nothing more: the second call
    returns what the first returned and leaves every dictionary as the
    first left it. *)
Theorem repeated_call_is_stable c w o :
  models w !! model_of c = Some o ->
  (run_call E c (run_call E c w).1).2 = (run_call E c w).2
  ∧ dicts (run_call E c (run_call E c w).1).1 = dicts (run_call E c w).1.
Proof.
  intros Hm.
  assert (Hm' : models (run_call E c w).1 !!! model_of c
                = models w !!! model_of c).
  { rewrite !lookup_total_alt. by rewrite (run_call_models E c w _ o), Hm. }
  split.
  - apply run_call_result_ext; [done|].
    unfold config_view. rewrite (run_call_dicts E c w).
    destruct c as [m t d ec|m t d ec|m t d ec]; cbn; [done|done|].
    destruct (xgboost_installed E); [|done].
    destruct ((models w !!! m) !! "_features_count") as [v|].
    { by rewrite lookup_total_insert_eq, delete_insert_eq. }
    destruct (type_is_ndarray t && _); [|done].
    by rewrite lookup_total_insert_eq, delete_insert_eq.
  - rewrite (run_call_dicts E c (run_call E c w).1).
    destruct c as [m t d ec|m t d ec|m t d ec]; [done|done|].
    cbn [model_of] in Hm'. cbn zeta. rewrite Hm', (run_call_dicts E _ w).
    cbn zeta. destruct (xgboost_installed E); [|done].
    destruct ((models w !!! m) !! "_features_count") as [v|].
    { by rewrite lookup_total_insert_eq, !insert_insert_eq. }
    destruct (type_is_ndarray t && _); [|done].
    by rewrite lookup_total_insert_eq, !insert_insert_eq.
Qed.

(** X7: [convert_xgboost] is not all-or-nothing. With XGBoost installed,
    torch missing and a model that reports its feature count [v], the call
    raises the torch assertion and nothing is copied or parsed, yet
    [extra_config["n_features"] = v] has been written. *)
Theorem xgboost_writes_before_torch_check m t d ec w v :
  xgboost_installed E = true ->
  torch_installed E = false ->
  (models w !!! m) !! "_features_count" = Some v ->
  convert_xgboost E m t d ec w =
    (with_n_features (default xgboost_default_config ec) v w,
     Raise (AssertionError torch_msg)).
Proof.
  intros Hx Ht Hfc. rewrite convert_xgboost_installed by done. cbn zeta.
  rewrite Hfc. by rewrite convert_sklearn_no_torch.
Qed.

(** X8: if the three default dictionaries are empty, as they are when the
    module is loaded, then after any sequence of calls that were given no
    [extra_config] or a dictionary of the caller's, the defaults of
    [convert_sklearn] and [convert_lightgbm] are still empty and the default
    of [convert_xgboost] holds at most the entry ["n_features"]. *)
Theorem default_dictionaries_after_calls cs w :
  Forall caller_owned cs ->
  dicts w !!! sklearn_default_config = ∅ ->
  dicts w !!! lightgbm_default_config = ∅ ->
  dicts w !!! xgboost_default_config = ∅ ->
  dicts (run_calls E cs w) !!! sklearn_default_config = ∅
  ∧ dicts (run_calls E cs w) !!! lightgbm_default_config = ∅
  ∧ ∀ k, k ≠ "n_features" ->
         (dicts (run_calls E cs w) !!! xgboost_default_config) !! k = None.
Proof.
  intros Hcs Hs Hl Hx.
  destruct (run_calls_defaults E cs w Hcs) as (H1 & H2 & H3).
  split; [congruence|]. split; [congruence|]. intros k Hk.
  rewrite <- (lookup_delete_ne _ "n_features" k) by done.
  by rewrite H3, Hx, delete_empty.
Qed.

(** X9: with LightGBM installed and [extra_config] omitted,
    [convert_lightgbm] does what [convert_sklearn] does with [extra_config]
    omitted, as long as the default dictionaries of the two functions hold
    the same entries. *)
Theorem convert_lightgbm_default_config m t d w :
  lightgbm_installed E = true ->
  dicts w !!! lightgbm_default_config = dicts w !!! sklearn_default_config ->
  convert_lightgbm E m t d None w = convert_sklearn E m t d None w.
Proof.
  intros Hg Heq. rewrite convert_lightgbm_forwards_default by done.
  destruct (torch_installed E) eqn:Ht.
  - rewrite !convert_sklearn_torch by done. cbn. by rewrite Heq.
  - by rewrite !convert_sklearn_no_torch.
Qed.

(** X10: of a two-dimensional array passed as [test_input],
    [convert_xgboost] uses the second dimension only: the number of rows
    and the element type change neither the result nor the store. *)
Theorem test_input_matters_only_through_width m dt1 dt2 k1 k2 n d ec w :
  convert_xgboost E m (InNdarray dt1 [k1; n]) d ec w
  = convert_xgboost E m (InNdarray dt2 [k2; n]) d ec w.
Proof.
  destruct (xgboost_installed E) eqn:Hx.
  - rewrite !convert_xgboost_installed by done. cbn.
    by destruct ((models w !!! m) !! "_features_count").
  - by rewrite !convert_xgboost_missing.
Qed.


End Outcome.

(** * The step-by-step properties on concrete calls *)

Lemma histories_are_caller_owned :
  Forall caller_owned [xgboost_call_default; sklearn_call; xgboost_call].
Proof.
  rewrite !Forall_cons, Forall_nil.
  unfold caller_owned; repeat split; intros; by simplify_eq/=.
Qed.


Lemma returned_program_comes_from_lowering_witness :
  torch_installed (echo_env true true true) = true
  ∧ ∃ topology,
      (parse_fn (echo_env true true true)
         (models caller_world !!! model_of xgboost_call)).2 = Ok topology
      ∧ lower_fn (echo_env true true true) topology (device_of xgboost_call)
          (dicts (run_call (echo_env true true true) xgboost_call
                    caller_world).1 !!! config_of xgboost_call)
        = Ok (classifier, VNone, <["n_features" := VInt 7]> ∅)
      ∧ trace (run_call (echo_env true true true) xgboost_call
                 caller_world).1 =
          (trace caller_world
             ++ [EvDeepcopy (model_of xgboost_call)
                   (fresh (dom (models caller_world)));
                 EvParse (fresh (dom (models caller_world)));
                 EvLower topology (device_of xgboost_call)
                   (dicts (run_call (echo_env true true true) xgboost_call
                             caller_world).1 !!! config_of xgboost_call)])%list.
Proof.
  apply (returned_program_comes_from_lowering (echo_env true true true)
           xgboost_call caller_world).
  vm_compute. reflexivity.
Defined.


Lemma other_entries_untouched_witness :
  (dicts (run_call (echo_env true true true) xgboost_call_default
            caller_world).1 !!! 20%positive) !! "n_features"
  = (dicts caller_world !!! 20%positive) !! "n_features".
Proof.
  apply (other_entries_untouched (echo_env true true true)
           xgboost_call_default caller_world 20%positive "n_features").
  left. done.
Defined.

Lemma repeated_call_is_stable_witness :
  (run_call (echo_env true true true) xgboost_call_sample
     (run_call (echo_env true true true) xgboost_call_sample
        caller_world).1).2
  = (run_call (echo_env true true true) xgboost_call_sample caller_world).2
  ∧ dicts (run_call (echo_env true true true) xgboost_call_sample
             (run_call (echo_env true true true) xgboost_call_sample
                caller_world).1).1
    = dicts (run_call (echo_env true true true) xgboost_call_sample
               caller_world).1.
Proof.
  apply (repeated_call_is_stable (echo_env true true true)
           xgboost_call_sample caller_world regressor).
  reflexivity.
Defined.

Lemma xgboost_writes_before_torch_check_witness :
  convert_xgboost (echo_env false true true) 11%positive InNone VNone
    (Some 20%positive) caller_world
  = (with_n_features 20%positive (VInt 7) caller_world,
     Raise (AssertionError torch_msg)).
Proof.
  apply (xgboost_writes_before_torch_check (echo_env false true true)
           11%positive InNone VNone (Some 20%positive) caller_world (VInt 7));
    reflexivity.
Defined.

Lemma default_dictionaries_after_calls_witness :
  dicts (run_calls (echo_env true true true)
           [xgboost_call_default; sklearn_call; xgboost_call] caller_world)
    !!! sklearn_default_config = (∅ : pydict)
  ∧ dicts (run_calls (echo_env true true true)
             [xgboost_call_default; sklearn_call; xgboost_call] caller_world)
      !!! lightgbm_default_config = (∅ : pydict)
  ∧ ∀ k, k ≠ "n_features" ->
         (dicts (run_calls (echo_env true true true)
                   [xgboost_call_default; sklearn_call; xgboost_call]
                   caller_world) !!! xgboost_default_config) !! k = None.
Proof.
  apply (default_dictionaries_after_calls (echo_env true true true)
           [xgboost_call_default; sklearn_call; xgboost_call] caller_world).
  - apply histories_are_caller_owned.
  - reflexivity.
  - reflexivity.
  - reflexivity.
Defined.

Lemma convert_lightgbm_default_config_witness :
  convert_lightgbm (echo_env true true true) 10%positive InNone VNone None
    caller_world
  = convert_sklearn (echo_env true true true) 10%positive InNone VNone None
      caller_world.
Proof.
  apply (convert_lightgbm_default_config (echo_env true true true)
           10%positive InNone VNone caller_world);
    reflexivity.
Defined.


Lemma omitted_config_history_independent_witness :
  (run_call (echo_env true true true) xgboost_call_default
     (run_calls (echo_env true true true)
        [xgboost_call_default; sklearn_call; xgboost_call] caller_world)).2
  = (run_call (echo_env true true true) xgboost_call_default caller_world).2.
Proof.
  apply (omitted_config_history_independent (echo_env true true true)
           xgboost_call_default
           [xgboost_call_default; sklearn_call; xgboost_call] caller_world
           classifier).
  - reflexivity.
  - apply histories_are_caller_owned.
  - reflexivity.
Defined.
